(** * PDF to Word converter: the conversion flow of [src/index.tsx]

    A shallow embedding of the [App] component's handlers:
    [handleFileChange], [handleConvert] (with [fileToGenerativePart]),
    [handleDownload] and [renderResultPreview], the drag-and-drop handlers
    and the [onChange] of the file input.

    JavaScript strings are modelled as [string] (the UTF-8 bytes of the
    text, a lone surrogate being written as its three bytes [ED A0..BF
    80..BF]); every operation used below ([===], [+], [split(',')],
    [replace('.pdf', '.doc')], truthiness) acts on ASCII delimiters only
    and so behaves the same on either encoding, and [encodeURIComponent]
    writes out these very bytes. *)

From Stdlib Require Import String Ascii List Bool Arith Lia.
From Stdlib Require Import DecimalString.
Import ListNotations.
Local Open Scope string_scope.

Set Implicit Arguments.

(** ** JavaScript string helpers *)

Module Js.

(** The line feed written [\n] in the source. *)
Definition LF : string := String (ascii_of_nat 10) EmptyString.

(** [!s] for [s : string | undefined | null]: absent and empty are falsy. *)
Definition falsy (v : option string) : bool :=
  match v with
  | None => true
  | Some EmptyString => true
  | Some (String _ _) => false
  end.

(** [a || b] where [a : string | undefined]. *)
Definition or_else (a : option string) (b : string) : string :=
  match a with
  | Some (String c s) => String c s
  | _ => b
  end.

(** [s.startsWith(p)] *)
Fixpoint startsWith (p s : string) : bool :=
  match p, s with
  | EmptyString, _ => true
  | String a p', String b s' => Ascii.eqb a b && startsWith p' s'
  | String _ _, EmptyString => false
  end.

(** [s.slice(n)] for [0 <= n] *)
Fixpoint drop (n : nat) (s : string) : string :=
  match n, s with
  | O, _ => s
  | S n', String _ s' => drop n' s'
  | S _, EmptyString => EmptyString
  end.

(** [s.includes(p)] *)
Fixpoint includes (p s : string) : bool :=
  startsWith p s ||
  match s with
  | EmptyString => false
  | String _ s' => includes p s'
  end.

(** [s.replace(p, r)] for a string pattern [p]: only the first
    occurrence of [p] is replaced.  The replacement is taken literally;
    the source's replacement ['.doc'] holds no [$] pattern. *)
Fixpoint replace (p r s : string) : string :=
  if startsWith p s then r ++ drop (String.length p) s
  else match s with
       | EmptyString => EmptyString
       | String c s' => String c (replace p r s')
       end.

(** [s.split(sep)] for a one-character separator. *)
Fixpoint split_from (sep : ascii) (acc s : string) : list string :=
  match s with
  | EmptyString => [acc]
  | String c s' =>
      if Ascii.eqb c sep then acc :: split_from sep EmptyString s'
      else split_from sep (acc ++ String c EmptyString) s'
  end.

Definition split (sep : ascii) (s : string) : list string :=
  split_from sep EmptyString s.

End Js.

(** ** Data model *)

(** The DOM [File]: its display name, MIME type and bytes. *)
Record File : Type := mkFile {
  name : string;
  type : string;
  bytes : list Byte.byte
}.

(** The six [useState] cells of [App]. *)
Record AppState : Type := mkAppState {
  file : option File;
  isLoading : bool;
  loadingMessage : string;
  error : option string;
  result : option string;
  isDragging : bool
}.

Definition setFile (v : option File) (s : AppState) : AppState :=
  mkAppState v (isLoading s) (loadingMessage s) (error s) (result s) (isDragging s).
Definition setIsLoading (v : bool) (s : AppState) : AppState :=
  mkAppState (file s) v (loadingMessage s) (error s) (result s) (isDragging s).
Definition setLoadingMessage (v : string) (s : AppState) : AppState :=
  mkAppState (file s) (isLoading s) v (error s) (result s) (isDragging s).
Definition setError (v : option string) (s : AppState) : AppState :=
  mkAppState (file s) (isLoading s) (loadingMessage s) v (result s) (isDragging s).
Definition setResult (v : option string) (s : AppState) : AppState :=
  mkAppState (file s) (isLoading s) (loadingMessage s) (error s) v (isDragging s).
Definition setIsDragging (v : bool) (s : AppState) : AppState :=
  mkAppState (file s) (isLoading s) (loadingMessage s) (error s) (result s) v.

(** The state [useState] starts from. *)
Definition initialState : AppState :=
  mkAppState None false "" None None false.

(** ** File intake: [handleFileChange] *)

Definition handleFileChange (selectedFile : option File) (s : AppState) : AppState :=
  match selectedFile with
  | Some f =>
      if String.eqb (type f) "application/pdf" then
        setResult None (setError None (setFile (Some f) s))
      else
        setFile None (setError (Some "Please select a valid PDF file.") s)
  | None =>
      setFile None (setError (Some "Please select a valid PDF file.") s)
  end.

(** ** Export: the file name of [handleDownload]

    [file?.name.replace('.pdf', '.doc') || 'document.doc'] *)

Definition deriveFileName (f : option File) : string :=
  Js.or_else
    (option_map (fun f' => Js.replace ".pdf" ".doc" (name f')) f)
    "document.doc".

(** ** The outside world of [handleConvert] *)

(** A thrown value, read only through [err.message]. *)
Record JsError : Type := mkError { message : string }.

(** How an awaited promise ends: with a value, with a rejection, or never. *)
Inductive Settled (A : Type) : Type :=
| Fulfilled (a : A)
| Rejected (e : JsError)
| Pending.
Arguments Fulfilled {A} a.
Arguments Rejected {A} e.
Arguments Pending {A}.

(** [{ inlineData: { data, mimeType } }]; [data] is [split(',')[1]], which
    is [undefined] when the data URL holds no comma. *)
Record InlineData : Type := mkInlineData {
  data : option string;
  mimeType : string
}.

(** One element of [contents.parts]. *)
Inductive Part : Type :=
| TextPart (t : string)
| InlineDataPart (inlineData : InlineData).

(** The argument of [ai.models.generateContent]. *)
Record GenerateContentParameters : Type := mkParams {
  model : string;
  parts : list Part
}.

(** The response, read only through [response.text : string | undefined]. *)
Record GenerateContentResponse : Type := mkResponse { text : option string }.

(** What a [FileReader] does with [readAsDataURL(file)]: [loadend] fires
    with [reader.result] a data URL, or [null] after a read error; or the
    reader throws while the promise executor is still running. *)
Inductive ReaderOutcome : Type :=
| LoadEnd (readerResult : option string)
| ReaderThrows (e : JsError).

(** The collaborators the handler calls.  [generateContent n req] is the
    answer to request [req] when [n] requests were sent before it. *)
Record External : Type := mkExternal {
  API_KEY : option string;
  GoogleGenAI : option string -> option JsError;
  readAsDataURL : File -> ReaderOutcome;
  generateContent : nat -> GenerateContentParameters -> Settled GenerateContentResponse
}.

(** The calls that leave the component, in the order they are made. *)
Inductive Event : Type :=
| EvRead (f : File) (o : ReaderOutcome)
| EvGenerate (req : GenerateContentParameters) (o : Settled GenerateContentResponse).

(** ** A monad for asynchronous handlers

    State is the component state plus the log of outside calls.  A
    computation returns, throws, or is suspended for ever on a promise that
    never settles. *)

Record World : Type := mkWorld {
  ui : AppState;
  trace : list Event
}.

Inductive Completion (A : Type) : Type :=
| Normal (a : A)
| Throw (e : JsError)
| Suspended.
Arguments Normal {A} a.
Arguments Throw {A} e.
Arguments Suspended {A}.

Definition Async (A : Type) : Type := World -> Completion A * World.

Definition ret {A : Type} (a : A) : Async A := fun w => (Normal a, w).

Definition bind {A B : Type} (m : Async A) (k : A -> Async B) : Async B :=
  fun w =>
    match m w with
    | (Normal a, w') => k a w'
    | (Throw e, w') => (Throw e, w')
    | (Suspended, w') => (Suspended, w')
    end.

Declare Scope async_scope.
Delimit Scope async_scope with async.
Notation "'do' x <- m ; k" := (bind m (fun x => k))
  (at level 10, x name, m at level 100, k at level 200) : async_scope.
Notation "m ;; k" := (bind m (fun _ => k))
  (at level 100, right associativity) : async_scope.
Local Open Scope async_scope.

(** [throw new Error(msg)] *)
Definition throw {A : Type} (e : JsError) : Async A := fun w => (Throw e, w).

(** A [useState] setter. *)
Definition set (f : AppState -> AppState) : Async unit :=
  fun w => (Normal tt, mkWorld (f (ui w)) (trace w)).

Definition emit (ev : Event) : Async unit :=
  fun w => (Normal tt, mkWorld (ui w) (trace w ++ [ev])).

(** [await p] *)
Definition await {A : Type} (p : Settled A) : Async A :=
  fun w =>
    match p with
    | Fulfilled a => (Normal a, w)
    | Rejected e => (Throw e, w)
    | Pending => (Suspended, w)
    end.

(** [try { body } catch (err) { handler } finally { fin }]; a suspended
    body never reaches [catch] or [finally]. *)
Definition after {A : Type} (c : Completion A * World) (fin : Async unit)
  : Completion A * World :=
  match c with
  | (Suspended, w) => (Suspended, w)
  | (c', w) =>
      match fin w with
      | (Normal _, w') => (c', w')
      | (Throw e, w') => (Throw e, w')
      | (Suspended, w') => (Suspended, w')
      end
  end.

Definition try_catch_finally {A : Type}
  (body : Async A) (handler : JsError -> Async A) (fin : Async unit) : Async A :=
  fun w =>
    match body w with
    | (Normal a, w') => after (Normal a, w') fin
    | (Throw e, w') => after (handler e w') fin
    | (Suspended, w') => (Suspended, w')
    end.

(** The [generateContent] calls of a log, oldest first. *)
Fixpoint generateCalls (l : list Event)
  : list (GenerateContentParameters * Settled GenerateContentResponse) :=
  match l with
  | [] => []
  | EvGenerate req o :: l' => (req, o) :: generateCalls l'
  | EvRead _ _ :: l' => generateCalls l'
  end.

(** The [FileReader] reads of a log, oldest first. *)
Fixpoint readCalls (l : list Event) : list (File * ReaderOutcome) :=
  match l with
  | [] => []
  | EvRead f o :: l' => (f, o) :: readCalls l'
  | EvGenerate _ _ :: l' => readCalls l'
  end.

(** ** The prompts of the three steps *)

Definition promptStep1 : string := "
You are an expert document transcriber specializing in converting complex, bilingual (English and Bengali) PDF documents into flawless GitHub Flavored Markdown.

Your task is to perform a high-fidelity OCR and conversion of the provided PDF. The final output must be a single, clean Markdown document that is a perfect digital representation of the original.

Pay meticulous attention to the following details:
1.  **Bilingual Accuracy:** Transcribe all English and Bengali text with extreme precision. Ensure all characters, including compound characters (যুক্তাক্ষর) in Bengali, are rendered correctly.
2.  **Structural Integrity:** Replicate the heading hierarchy, paragraphs, and emphasis (bold, italic).
3.  **Complex Elements:** Reconstruct all tables using GitHub Flavored Markdown.
4.  **List Integrity:** Accurately replicate all ordered (numbered), unordered (bulleted), and nested lists. Preserve the exact indentation and nesting levels as seen in the original document.
5.  **Mathematical Equations & Special Symbols:** Transcribe all mathematical and scientific notations directly into their corresponding standard Unicode characters (e.g., √x instead of LaTeX).
6.  **Final Output:** The output MUST be **only** the final, clean Markdown text. Do NOT include any commentary or explanations.".

Definition promptStep2 : string := "
You are a meticulous document proofreader and quality control specialist. You have been given an original PDF document and a Markdown text that was generated from it via OCR.

Your task is to **compare the provided Markdown text against the original PDF** and correct any and all errors.

**Instructions:**
1.  **Cross-Reference:** Carefully examine the PDF and the Markdown side-by-side.
2.  **Correct Errors:** Fix any mistakes in the Markdown text. This includes:
    *   **OCR Errors:** Misspelled words, incorrect characters, especially in complex Bengali যুক্তাক্ষর.
    *   **Formatting Errors:** Incorrect heading levels or broken tables. Pay special attention to **list formatting**. Ensure that ordered (numbered), unordered (bulleted), and nested lists are perfectly structured with correct indentation. Fix any improperly formatted lists or missed bold/italic text.
    *   **Structural Errors:** Missing paragraphs, incorrect line breaks.
    *   **Symbol Errors:** Ensure all mathematical and special symbols are correct Unicode characters as seen in the PDF.
3.  **Output:** Your output MUST be **only** the fully corrected, clean Markdown text. Do not add any commentary, notes, or explanations.".

Definition promptStep3 : string := "
You are a final quality assurance specialist performing the last check on a document conversion. You have been given an original PDF and a corrected Markdown version.

Your task is to conduct a **final, exhaustive review** to ensure the Markdown is a perfect, flawless representation of the PDF.

**Instructions:**
1.  **Final Scrutiny:** This is the last chance to catch any errors. Pay extreme attention to the smallest details.
2.  **Perfection Check:** Verify headings, tables, bilingual text (English and Bengali), and all special symbols one last time. Give special scrutiny to **all lists**. Ensure that all bullet points, numbered items, and nested sub-lists are perfectly formatted and indented, exactly mirroring the PDF's structure.
3.  **Clean Output:** Your output MUST be **only** the final, polished Markdown text. Do not include any explanations or introductory phrases. The goal is a perfect, ready-to-use document.".

(** The separators the source puts before the previous step's Markdown:
    the literals [\n\n--- ... ---\n\n] of steps 2 and 3. *)
Definition ocrTag : string :=
  Js.LF ++ Js.LF ++ "--- OCR-GENERATED MARKDOWN TO BE VERIFIED ---" ++ Js.LF ++ Js.LF.
Definition polishTag : string :=
  Js.LF ++ Js.LF ++ "--- CORRECTED MARKDOWN FOR FINAL POLISH ---" ++ Js.LF ++ Js.LF.

(** ** The conversion flow *)

Section Conversion.

Variable env : External.

(** [new GoogleGenAI({ apiKey: process.env.API_KEY })] *)
Definition newGoogleGenAI : Async unit :=
  match GoogleGenAI env (API_KEY env) with
  | Some e => throw e
  | None => ret tt
  end.

(** The promise of [fileToGenerativePart] has no [reject]: it is
    fulfilled from [onloadend] with [reader.result.split(',')[1]];
    rejected only when the executor itself throws; and when
    [reader.result] is [null] the handler's [split] throws inside the
    event callback, so the promise stays pending. *)
Definition base64EncodedDataPromise (o : ReaderOutcome) : Settled (option string) :=
  match o with
  | LoadEnd (Some dataURL) => Fulfilled (nth_error (Js.split "," dataURL) 1)
  | LoadEnd None => Pending
  | ReaderThrows e => Rejected e
  end.

Definition fileToGenerativePart (f : File) : Async Part :=
  let o := readAsDataURL env f in
  emit (EvRead f o) ;;
  do d <- await (base64EncodedDataPromise o) ;
  ret (InlineDataPart (mkInlineData d (type f))).

(** [await ai.models.generateContent(req)] *)
Definition ai_models_generateContent (req : GenerateContentParameters)
  : Async GenerateContentResponse :=
  fun w =>
    let o := generateContent env (List.length (generateCalls (trace w))) req in
    (emit (EvGenerate req o) ;; await o) w.

(** The body of the [try] block of [handleConvert]. *)
Definition pipeline (file : File) : Async unit :=
  newGoogleGenAI ;;
  do filePart <- fileToGenerativePart file ;

  set (setLoadingMessage "Step 1 of 3: Performing initial conversion...") ;;
  do responseStep1 <- ai_models_generateContent
    (mkParams "gemini-2.5-flash" [TextPart promptStep1; filePart]) ;
  match text responseStep1 with
  | None | Some EmptyString =>
      throw (mkError "Step 1 (Initial Conversion) failed or returned empty.")
  | Some markdownStep1 =>

  set (setLoadingMessage "Step 2 of 3: Verifying and correcting the document...") ;;
  do responseStep2 <- ai_models_generateContent
    (mkParams "gemini-2.5-flash"
       [TextPart promptStep2; filePart;
        TextPart (ocrTag ++ markdownStep1)]) ;
  match text responseStep2 with
  | None | Some EmptyString =>
      throw (mkError "Step 2 (Verification) failed or returned empty.")
  | Some markdownStep2 =>

  set (setLoadingMessage "Step 3 of 3: Applying final polish...") ;;
  do responseStep3 <- ai_models_generateContent
    (mkParams "gemini-2.5-flash"
       [TextPart promptStep3; filePart;
        TextPart (polishTag ++ markdownStep2)]) ;
  match text responseStep3 with
  | None | Some EmptyString =>
      throw (mkError "Step 3 (Final Polish) failed or returned empty.")
  | Some finalResult =>
      set (setResult (Some finalResult))
  end end end.

Definition handleConvert : Async unit :=
  fun w =>
    match file (ui w) with
    | None => set (setError (Some "Please select a file first.")) w
    | Some f =>
        (set (setIsLoading true) ;;
         set (setError None) ;;
         set (setResult None) ;;
         try_catch_finally
           (pipeline f)
           (fun err => set (setError (Some ("Error processing file: " ++ message err))))
           (set (setIsLoading false) ;; set (setLoadingMessage ""))) w
    end.

(** One click on the button, from component state [s]. *)
Definition run (s : AppState) : Completion unit * World :=
  handleConvert (mkWorld s []).

End Conversion.

(** [disabled={!file || isLoading}] of the convert button. *)
Definition convertDisabled (s : AppState) : bool :=
  match file s with None => true | Some _ => isLoading s end.

(** ** Reading a log *)

(** The failure an outside call raised into the flow, if it raised one. *)
Definition raisedBy (ev : Event) : option JsError :=
  match ev with
  | EvRead _ (ReaderThrows e) => Some e
  | EvGenerate _ (Rejected e) => Some e
  | _ => None
  end.

(** An outside call after which the [try] block throws: the reader throws
    while the promise is set up, a [generateContent] call is rejected, or
    its response text is falsy.  A read error is not among them: it ends
    in [LoadEnd None], after which nothing is thrown into the flow (see
    [pending] below). *)
Definition abortsRun (ev : Event) : bool :=
  match ev with
  | EvRead _ (ReaderThrows _) => true
  | EvRead _ (LoadEnd _) => false
  | EvGenerate _ (Rejected _) => true
  | EvGenerate _ (Fulfilled r) => Js.falsy (text r)
  | EvGenerate _ Pending => false
  end.

(** The attachment carried by a request: its [inlineData] parts. *)
Fixpoint attachments (ps : list Part) : list InlineData :=
  match ps with
  | [] => []
  | InlineDataPart a :: ps' => a :: attachments ps'
  | TextPart _ :: ps' => attachments ps'
  end.

(** The step number as the messages print it. *)
Definition stepNumber (k : nat) : string :=
  NilEmpty.string_of_uint (Nat.to_uint k).

(** What the three [throw new Error(...)] of [handleConvert] say, by step. *)
Definition stepFailures : list string :=
  ["Step 1 (Initial Conversion) failed or returned empty.";
   "Step 2 (Verification) failed or returned empty.";
   "Step 3 (Final Polish) failed or returned empty."].

(** The world in which the [try] block of [handleConvert] starts. *)
Definition tryEntry (s : AppState) : World :=
  mkWorld (setResult None (setError None (setIsLoading true s))) [].

(** The state a failed run ends in. *)
Definition failedWith (s : AppState) (description : string) : AppState :=
  mkAppState (file s) false ""
    (Some ("Error processing file: " ++ description)) None (isDragging s).

(** ** Sample inputs *)

Definition report : File := mkFile "report.pdf" "application/pdf" [].
Definition picture : File := mkFile "photo.png" "image/png" [].
Definition notes : File := mkFile "notes.txt" "application/pdf" [].

(** [report] selected, nothing converted yet. *)
Definition selected : AppState := handleFileChange (Some report) initialState.

(** A finished conversion of [report]. *)
Definition converted : AppState := setResult (Some "# Old") selected.

Definition answers (t : string) : Settled GenerateContentResponse :=
  Fulfilled (mkResponse (Some t)).

(** A service that answers the n-th request with the n-th entry of [rs]
    and never answers a later one; the reader always loads. *)
Definition scripted (rs : list (Settled GenerateContentResponse)) : External :=
  mkExternal (Some "key") (fun _ => None)
    (fun _ => LoadEnd (Some "data:application/pdf;base64,JVBERg=="))
    (fun n _ => nth n rs Pending).

(** A reader that fails to read the file: [loadend] fires with
    [reader.result] null. *)
Definition readError : External :=
  mkExternal (Some "key") (fun _ => None)
    (fun _ => LoadEnd None)
    (fun _ _ => Pending).

(** A reader that throws inside the promise executor. *)
Definition unreadable : External :=
  mkExternal (Some "key") (fun _ => None)
    (fun _ => ReaderThrows (mkError "NotReadableError"))
    (fun _ _ => Pending).

(** ** Percent-encoding: [encodeURIComponent]

    The built-in turns the text into UTF-8 and writes every byte that is
    not an unreserved character as [%XX] in upper-case hexadecimal.  On the
    UTF-8 bytes held by [string] that is a map over the bytes.  On a text
    with a lone surrogate the built-in throws instead: [hasLoneSurrogate]
    says where, and [encodeURIComponent] is what it returns elsewhere. *)

Module Uri.

(** [A-Z a-z 0-9 - _ . ! ~ * ' ( )] *)
Definition unreserved (c : ascii) : bool :=
  let n := nat_of_ascii c in
  (Nat.leb 65 n && Nat.leb n 90) || (Nat.leb 97 n && Nat.leb n 122)
  || (Nat.leb 48 n && Nat.leb n 57)
  || existsb (Ascii.eqb c) (list_ascii_of_string "-_.!~*'()").

Definition hexDigits : list ascii := list_ascii_of_string "0123456789ABCDEF".

Definition hexDigit (n : nat) : ascii := nth n hexDigits "0"%char.

Definition escape (c : ascii) : string :=
  let n := nat_of_ascii c in
  String "%" (String (hexDigit (n / 16)) (String (hexDigit (n mod 16)) EmptyString)).

Definition encodeChar (c : ascii) : string :=
  if unreserved c then String c EmptyString else escape c.

Fixpoint encodeURIComponent (s : string) : string :=
  match s with
  | EmptyString => EmptyString
  | String c s' => encodeChar c ++ encodeURIComponent s'
  end.

(** The value of a hexadecimal digit. *)
Fixpoint indexOf (c : ascii) (l : list ascii) : nat :=
  match l with
  | [] => 0
  | d :: l' => if Ascii.eqb c d then 0 else S (indexOf c l')
  end.

(** Reading the escapes back, as a browser does when it opens a [data:]
    URL.  Not called by the component; it states that nothing is lost. *)
Fixpoint unescape (s : string) : string :=
  match s with
  | EmptyString => EmptyString
  | String c s' =>
      if Ascii.eqb c "%" then
        match s' with
        | String h (String l s'') =>
            String (ascii_of_nat (16 * indexOf h hexDigits + indexOf l hexDigits))
                   (unescape s'')
        | _ => String c (unescape s')
        end
      else String c (unescape s')
  end.

(** Every character of [s] satisfies [p]. *)
Fixpoint every (p : ascii -> bool) (s : string) : bool :=
  match s with
  | EmptyString => true
  | String c s' => p c && every p s'
  end.

(** A character that may stand in a URL as it is, or the escape sign. *)
Definition uriChar (c : ascii) : bool := unreserved c || Ascii.eqb c "%".

(** The text holds a lone surrogate (U+D800 to U+DFFF): the byte [ED]
    followed by a byte from [A0] to [BF].  [ED] is never a continuation
    byte, and in well-formed UTF-8 it is followed by [80] to [9F] only. *)
Fixpoint hasLoneSurrogate (s : string) : bool :=
  match s with
  | EmptyString => false
  | String c s' =>
      match s' with
      | String d _ =>
          Nat.eqb (nat_of_ascii c) 237
          && Nat.leb 160 (nat_of_ascii d) && Nat.leb (nat_of_ascii d) 191
      | EmptyString => false
      end
      || hasLoneSurrogate s'
  end.

End Uri.

(** ** Export: [renderResultPreview] and [handleDownload] *)

(** The wrapper of the exported document. *)
Definition header : string := "
            <html xmlns:o='urn:schemas-microsoft-com:office:office' 
                  xmlns:w='urn:schemas-microsoft-com:office:word' 
                  xmlns='http://www.w3.org/TR/REC-html40'>
            <head>
                <meta charset='utf-8'>
                <title>Export HTML to Word</title>
                <style>
                    table {
                        border-collapse: collapse;
                        width: 100%;
                    }
                    th, td {
                        border: 1px solid black;
                        padding: 8px;
                        text-align: left;
                    }
                    th {
                        background-color: #f2f2f2;
                        font-weight: bold;
                    }
                </style>
            </head>
            <body>".
Definition footer : string := "</body></html>".

(** An [<a>] element, by the two attributes the handler sets. *)
Record Anchor : Type := mkAnchor {
  href : string;
  download : string
}.

(** The part of the page the handler touches: how many elements were
    created so far (an element is known by its creation number), the
    children of [document.body] in order, and the anchors clicked, each of
    which the browser saves under its [download] name. *)
Record Browser : Type := mkBrowser {
  created : nat;
  bodyChildren : list nat;
  clicked : list Anchor
}.

(** The [URIError] of [encodeURIComponent]; the message is the engine's. *)
Definition URIError : JsError := mkError "URI malformed".

Section Exporter.

(** [showdown]: [makeHtml options markdown] is the HTML a converter with
    the options set so far returns. *)
Variable makeHtml : list (string * bool) -> string -> string.

(** The HTML of [renderResultPreview]; [None] where it returns [null]. *)
Definition renderResultPreview (s : AppState) : option string :=
  match result s with
  | None | Some EmptyString => None
  | Some markdown => Some (makeHtml [("tables", true)] markdown)
  end.

(** [handleDownload], with how the call ends.  [encodeURIComponent] runs
    before any element is created, so when it throws the page is left as
    it was. *)
Definition handleDownloadOutcome (s : AppState) (b : Browser)
  : Completion unit * Browser :=
  match result s with
  | None | Some EmptyString => (Normal tt, b)
  | Some markdown =>
      let htmlContent := makeHtml [("tables", true)] markdown in
      let sourceHTML := header ++ htmlContent ++ footer in
      if Uri.hasLoneSurrogate sourceHTML then (Throw URIError, b)
      else
      let source := "data:application/vnd.ms-word;charset=utf-8,"
                      ++ Uri.encodeURIComponent sourceHTML in
      (* document.createElement("a") *)
      let fileDownload := created b in
      let b1 := mkBrowser (S (created b)) (bodyChildren b) (clicked b) in
      (* document.body.appendChild(fileDownload) *)
      let b2 := mkBrowser (created b1) (bodyChildren b1 ++ [fileDownload]) (clicked b1) in
      let fileName := deriveFileName (file s) in
      (* fileDownload.click() *)
      let b3 := mkBrowser (created b2) (bodyChildren b2)
                  (clicked b2 ++ [mkAnchor source fileName]) in
      (* document.body.removeChild(fileDownload) *)
      (Normal tt,
       mkBrowser (created b3) (List.remove Nat.eq_dec fileDownload (bodyChildren b3))
         (clicked b3))
  end.

(** The page after [handleDownload]. *)
Definition handleDownload (s : AppState) (b : Browser) : Browser :=
  snd (handleDownloadOutcome s b).

End Exporter.

(** [{result && !isLoading && ...}]: the preview and the download button
    are rendered. *)
Definition downloadOffered (s : AppState) : bool :=
  negb (Js.falsy (result s)) && negb (isLoading s).

(** The children of [document.body] were all created earlier. *)
Definition wellFormed (b : Browser) : Prop :=
  Forall (fun n => n < created b) (bodyChildren b).

(** ** Drag and drop, and the file input

    [preventDefault], [stopPropagation] and [clearData] act on the event
    only and leave the component state alone. *)

Definition handleDragEnter (s : AppState) : AppState := setIsDragging true s.
Definition handleDragLeave (s : AppState) : AppState := setIsDragging false s.
Definition handleDragOver (s : AppState) : AppState := s.

(** [files] is [e.dataTransfer.files]. *)
Definition handleDrop (files : option (list File)) (s : AppState) : AppState :=
  let s' := setIsDragging false s in
  match files with
  | Some (f :: _) => handleFileChange (Some f) s'
  | _ => s'
  end.

(** [onChange] of the input: [e.target.files ? e.target.files[0] : null];
    the first entry of an empty list is [undefined]. *)
Definition onChange (files : option (list File)) (s : AppState) : AppState :=
  handleFileChange
    (match files with
     | Some l => nth_error l 0
     | None => None
     end) s.

(** ** The component as a transition system

    One action is one handler call.  A conversion is taken as a whole: to
    its end, or to the point where it waits for ever. *)

Inductive Action : Type :=
| DragEnter
| DragLeave
| DragOver
| Drop (files : option (list File))
| Change (files : option (list File))
| Convert (env : External).

Definition act (s : AppState) (a : Action) : AppState :=
  match a with
  | DragEnter => handleDragEnter s
  | DragLeave => handleDragLeave s
  | DragOver => handleDragOver s
  | Drop files => handleDrop files s
  | Change files => onChange files s
  | Convert env => ui (snd (run env s))
  end.

(** The state after a sequence of actions on the freshly mounted component. *)
Definition after_actions (l : list Action) : AppState :=
  fold_left act l initialState.

(** The stored file, when there is one, is a PDF by its MIME type. *)
Definition pdfOnly (s : AppState) : Prop :=
  match file s with
  | Some f => type f = "application/pdf"
  | None => True
  end.

(** ** More ways to read a log *)

(** An outside call whose promise never settles. *)
Definition pending (ev : Event) : bool :=
  match ev with
  | EvRead _ (LoadEnd None) => true
  | EvGenerate _ Pending => true
  | _ => false
  end.

(** A service call that came back with usable text. *)
Definition succeeded (o : Settled GenerateContentResponse) : bool :=
  match o with
  | Fulfilled r => negb (Js.falsy (text r))
  | _ => false
  end.

(** The three arguments of [setLoadingMessage], by step. *)
Definition progress : list string :=
  ["Step 1 of 3: Performing initial conversion...";
   "Step 2 of 3: Verifying and correcting the document...";
   "Step 3 of 3: Applying final polish..."].

(** A client that cannot be built, as when no API key is set. *)
Definition keyless : External :=
  mkExternal None (fun _ => Some (mkError "An API Key must be set"))
    (fun _ => LoadEnd (Some "data:application/pdf;base64,JVBERg=="))
    (fun _ _ => Pending).

(** A text that is one lone surrogate, U+D800. *)
Definition loneSurrogate : string :=
  String (ascii_of_nat 237) (String (ascii_of_nat 160) (String (ascii_of_nat 128) "")).

(** A conversion of [report] whose result holds a lone surrogate. *)
Definition garbled : AppState := setResult (Some ("# " ++ loneSurrogate)) selected.

(** A Markdown renderer to run examples with. *)
Definition plainHtml (options : list (string * bool)) (markdown : string) : string :=
  "<p>" ++ markdown ++ "</p>".

(** * Properties *)

(** ** String helpers *)

Lemma startsWith_pdf_app (c : ascii) (s : string) :
  Js.startsWith ".pdf" (String c s) = false ->
  Js.startsWith ".pdf" (String c s ++ ".pdf") = false.
Proof.
  destruct s as [|c2 [|c3 [|c4 s]]]; cbn;
    destruct (Ascii.eqb "." c); cbn; auto;
    destruct (Ascii.eqb "p" c2); cbn; auto;
    destruct (Ascii.eqb "d" c3); cbn; auto.
Qed.

Lemma replace_trailing_pdf (base : string) :
  Js.includes ".pdf" base = false ->
  Js.replace ".pdf" ".doc" (base ++ ".pdf") = base ++ ".doc".
Proof.
  induction base as [|c base IH]; [reflexivity|].
  intros H. change (Js.includes ".pdf" (String c base))
    with (Js.startsWith ".pdf" (String c base) || Js.includes ".pdf" base) in H.
  apply orb_false_iff in H as [Hhere Hlater].
  change (Js.replace ".pdf" ".doc" (String c base ++ ".pdf"))
    with (if Js.startsWith ".pdf" (String c base ++ ".pdf")
          then ".doc" ++ Js.drop 4 (String c base ++ ".pdf")
          else String c (Js.replace ".pdf" ".doc" (base ++ ".pdf"))).
  rewrite (startsWith_pdf_app _ _ Hhere), (IH Hlater). reflexivity.
Qed.

Lemma replace_absent (p r s : string) :
  Js.includes p s = false -> Js.replace p r s = s.
Proof.
  induction s as [|c s IH]; cbn [Js.includes Js.replace]; intros H;
    apply orb_false_iff in H as [Hhere Hlater]; rewrite Hhere.
  - reflexivity.
  - now rewrite (IH Hlater).
Qed.

Lemma or_else_nonempty (s d : string) : s <> "" -> Js.or_else (Some s) d = s.
Proof. destruct s; [congruence | reflexivity]. Qed.

(** ** File intake *)

(** C8. A selected file whose MIME type is not [application/pdf] leaves the
    stored file unset and sets the error to "Please select a valid PDF
    file."; a file whose MIME type is [application/pdf] is stored. *)
Theorem handleFileChange_enforces_pdf (f : File) (s : AppState) :
  (type f <> "application/pdf" ->
     file (handleFileChange (Some f) s) = None /\
     error (handleFileChange (Some f) s) = Some "Please select a valid PDF file.") /\
  (type f = "application/pdf" ->
     file (handleFileChange (Some f) s) = Some f).
Proof.
  unfold handleFileChange. split; intros H.
  - apply String.eqb_neq in H. rewrite H. split; reflexivity.
  - apply String.eqb_eq in H. rewrite H. reflexivity.
Qed.

Lemma handleFileChange_enforces_pdf_witness :
  (file (handleFileChange (Some picture) converted) = None /\
   error (handleFileChange (Some picture) converted)
     = Some "Please select a valid PDF file.") /\
  file (handleFileChange (Some report) initialState) = Some report.
Proof.
  split.
  - apply (proj1 (handleFileChange_enforces_pdf picture converted)).
    cbn. discriminate.
  - apply (proj2 (handleFileChange_enforces_pdf report initialState)).
    reflexivity.
Defined.

(** C10. Selecting a valid PDF clears the error and the previous result;
    selecting anything else sets the error and unsets the file but leaves
    the previous result as it was. *)
Theorem handleFileChange_frame (f : File) (s : AppState) :
  (type f = "application/pdf" ->
     error (handleFileChange (Some f) s) = None /\
     result (handleFileChange (Some f) s) = None) /\
  (type f <> "application/pdf" ->
     error (handleFileChange (Some f) s) = Some "Please select a valid PDF file." /\
     file (handleFileChange (Some f) s) = None /\
     result (handleFileChange (Some f) s) = result s).
Proof.
  unfold handleFileChange. split; intros H.
  - apply String.eqb_eq in H. rewrite H. split; reflexivity.
  - apply String.eqb_neq in H. rewrite H. repeat split; reflexivity.
Qed.

Lemma handleFileChange_frame_witness :
  (error (handleFileChange (Some report) converted) = None /\
   result (handleFileChange (Some report) converted) = None) /\
  (error (handleFileChange (Some picture) converted)
     = Some "Please select a valid PDF file." /\
   file (handleFileChange (Some picture) converted) = None /\
   result (handleFileChange (Some picture) converted) = Some "# Old").
Proof.
  split.
  - apply (proj1 (handleFileChange_frame report converted)). reflexivity.
  - apply (proj2 (handleFileChange_frame picture converted)).
    cbn. discriminate.
Defined.

(** No file at all ([null]) is refused like a non-PDF file. *)
Lemma handleFileChange_null (s : AppState) :
  handleFileChange None s
  = mkAppState None (isLoading s) (loadingMessage s)
      (Some "Please select a valid PDF file.") (result s) (isDragging s).
Proof. reflexivity. Qed.

(** ** Export file name *)

(** C6, as amended.  A name that ends in [.pdf] and holds no earlier
    [.pdf] has that extension replaced by [.doc]; a non-empty name without
    [.pdf] is kept as it is; the default ["document.doc"] is the result
    when the file is absent or its name is empty. *)
Theorem deriveFileName_cases :
  (forall (f : File) (base : string),
     name f = base ++ ".pdf" -> Js.includes ".pdf" base = false ->
     deriveFileName (Some f) = base ++ ".doc") /\
  (forall f : File,
     Js.includes ".pdf" (name f) = false -> name f <> "" ->
     deriveFileName (Some f) = name f) /\
  (forall f : File, name f = "" -> deriveFileName (Some f) = "document.doc") /\
  deriveFileName None = "document.doc".
Proof.
  unfold deriveFileName; cbn [option_map]. repeat split.
  - intros f base Hname Hbase.
    rewrite Hname, (replace_trailing_pdf _ Hbase).
    apply or_else_nonempty. destruct base; discriminate.
  - intros f Habsent Hne.
    rewrite (replace_absent _ _ _ Habsent). now apply or_else_nonempty.
  - intros f Hname. rewrite Hname. reflexivity.
Qed.

Lemma deriveFileName_cases_witness :
  deriveFileName (Some report) = "report.doc" /\
  deriveFileName (Some notes) = "notes.txt" /\
  deriveFileName (Some (mkFile "" "application/pdf" [])) = "document.doc".
Proof.
  destruct deriveFileName_cases as (Hpdf & Hkeep & Hempty & _).
  split; [|split].
  - apply (Hpdf report "report"); reflexivity.
  - apply (Hkeep notes); [reflexivity | discriminate].
  - apply (Hempty (mkFile "" "application/pdf" [])); reflexivity.
Defined.

(** C6, as stated, fails: a name without a trailing [.pdf] is not mapped
    to the default name. *)
Lemma deriveFileName_no_extension_counterexample :
  Js.includes ".pdf" (name notes) = false /\
  deriveFileName (Some notes) = "notes.txt" /\
  deriveFileName (Some notes) <> "document.doc".
Proof. split; [reflexivity | split; [reflexivity | discriminate]]. Qed.

(** ** Conversion flow *)

(** Symbolic execution of one click: name the state cells, unfold the
    handler and split on every answer of the outside world.  The setters
    stay folded; projections out of them reduce by computation. *)
Ltac exec_step :=
  match goal with
  | |- context [GoogleGenAI ?e ?k] => destruct (GoogleGenAI e k) eqn:?
  | |- context [readAsDataURL ?e ?f] =>
      destruct (readAsDataURL e f) as [[?|]|?] eqn:?
  | |- context [generateContent ?e ?n ?q] =>
      destruct (generateContent e n q) as [[[[|? ?]|]]|?|] eqn:?
  end; cbn.

Ltac exec_unfold :=
  unfold run, tryEntry, handleConvert, try_catch_finally, pipeline,
    newGoogleGenAI, fileToGenerativePart, ai_models_generateContent,
    base64EncodedDataPromise, bind, set, emit, await, throw, ret, after;
  cbn.

(** Closes [_ = Some (q, generateContent env n q)] with the equation that
    names the answer to [q]. *)
Ltac logged_answer :=
  match goal with
  | E : generateContent _ _ ?q = _ |- _ = Some (_, _) =>
      exact (f_equal (fun o => Some (q, o)) (eq_sym E))
  end.

(** For a goal about [run env s] with [s] arbitrary. *)
Ltac exec :=
  match goal with
  | s : AppState |- _ =>
      let sfile := fresh "sfile" in
      destruct s as [sfile ? ? ? ? ?];
      exec_unfold; destruct sfile; cbn; repeat exec_step
  end.

(** For a goal about [run env s] where [Hf : file s = Some f]. *)
Ltac exec_with Hf :=
  match goal with
  | s : AppState |- _ =>
      let sfile := fresh "sfile" in
      destruct s as [sfile ? ? ? ? ?];
      cbn in Hf; subst sfile;
      exec_unfold; repeat exec_step
  end.

(** C9. With no file selected the handler only sets the error "Please
    select a file first.": it returns at once, reads no file, calls no
    service, and leaves every other state cell as it was. *)
Theorem handleConvert_without_file (env : External) (s : AppState) :
  file s = None ->
  run env s = (Normal tt, mkWorld (setError (Some "Please select a file first.") s) []) /\
  error (ui (snd (run env s))) = Some "Please select a file first." /\
  file (ui (snd (run env s))) = file s /\
  isLoading (ui (snd (run env s))) = isLoading s /\
  loadingMessage (ui (snd (run env s))) = loadingMessage s /\
  result (ui (snd (run env s))) = result s /\
  isDragging (ui (snd (run env s))) = isDragging s /\
  trace (snd (run env s)) = [].
Proof.
  intros H. destruct s as [sfile ? ? ? ? ?]; cbn in H; subst sfile.
  repeat split; reflexivity.
Qed.

Lemma handleConvert_without_file_witness :
  error (ui (snd (run unreadable initialState))) = Some "Please select a file first." /\
  trace (snd (run unreadable initialState)) = [].
Proof.
  destruct (handleConvert_without_file unreadable initialState) as (_ & He & H);
    [reflexivity|].
  split; [exact He | apply H].
Defined.

(** C1. When all three steps return non-empty text, the run completes and
    the stored result is the text of the third response, as returned. *)
Theorem result_is_step3_text (env : External) (s : AppState)
    (q1 q2 q3 : GenerateContentParameters) (r1 r2 r3 : GenerateContentResponse) :
  generateCalls (trace (snd (run env s)))
    = [(q1, Fulfilled r1); (q2, Fulfilled r2); (q3, Fulfilled r3)] ->
  Js.falsy (text r1) = false ->
  Js.falsy (text r2) = false ->
  Js.falsy (text r3) = false ->
  fst (run env s) = Normal tt /\
  result (ui (snd (run env s))) = text r3 /\
  error (ui (snd (run env s))) = None.
Proof.
  exec; intros H; try discriminate H.
  all: injection H as <- <- <- <- <- <-; cbn; intros; try discriminate; auto.
Qed.

Lemma result_is_step3_text_witness :
  result (ui (snd (run (scripted [answers "# A"; answers "# B"; answers "# C"])
                     selected))) = Some "# C".
Proof.
  refine (proj1 (proj2
    (result_is_step3_text (scripted [answers "# A"; answers "# B"; answers "# C"])
       selected (q1 := _) (q2 := _) (q3 := _)
       (r1 := mkResponse (Some "# A")) (r2 := mkResponse (Some "# B"))
       (r3 := mkResponse (Some "# C")) _ _ _ _))); reflexivity.
Defined.

(** C2. When the step at position [k] of the run returns empty or absent
    text, the run ends failed with a message naming step [k + 1], exactly
    [k + 1] service calls were made, and no result is stored. *)
Theorem empty_step_aborts_run (env : External) (s : AppState) (k : nat)
    (req : GenerateContentParameters) (r : GenerateContentResponse) :
  nth_error (generateCalls (trace (snd (run env s)))) k = Some (req, Fulfilled r) ->
  Js.falsy (text r) = true ->
  fst (run env s) = Normal tt /\
  (exists label : string,
     error (ui (snd (run env s)))
     = Some ("Error processing file: Step " ++ stepNumber (S k)
               ++ " (" ++ label ++ ") failed or returned empty.")) /\
  List.length (generateCalls (trace (snd (run env s)))) = S k /\
  result (ui (snd (run env s))) = None.
Proof.
  exec; intros H; destruct k as [|[|[|k]]]; cbn in H; try discriminate H;
    try (destruct k; discriminate H).
  all: injection H as <- <-; cbn; intros Hempty; try discriminate Hempty.
  all: repeat split; try reflexivity.
  all: first [ now exists "Initial Conversion"
             | now exists "Verification"
             | now exists "Final Polish" ].
Qed.

Lemma empty_step_aborts_run_witness :
  List.length (generateCalls (trace (snd (run (scripted [answers "# A"; answers ""])
                                          selected)))) = 2 /\
  result (ui (snd (run (scripted [answers "# A"; answers ""]) selected))) = None.
Proof.
  refine (proj2 (proj2
    (empty_step_aborts_run (scripted [answers "# A"; answers ""]) selected 1
       (req := _) (r := mkResponse (Some "")) _ _))); reflexivity.
Defined.

(** C3, as amended.  When the step at position [k] returns empty or
    absent text, the [try] block throws an error whose message is the
    [k]-th of "Step 1 (Initial Conversion) failed or returned empty.",
    "Step 2 (Verification) failed or returned empty." and "Step 3 (Final
    Polish) failed or returned empty."; the handler stores it after the
    prefix "Error processing file: ". *)
Theorem empty_step_message (env : External) (s : AppState) (f : File) (k : nat)
    (req : GenerateContentParameters) (r : GenerateContentResponse) :
  file s = Some f ->
  nth_error (generateCalls (trace (snd (run env s)))) k = Some (req, Fulfilled r) ->
  Js.falsy (text r) = true ->
  fst (pipeline env f (tryEntry s)) = Throw (mkError (nth k stepFailures "")) /\
  error (ui (snd (run env s)))
  = Some ("Error processing file: " ++ nth k stepFailures "").
Proof.
  intros Hf. exec_with Hf; intros H; destruct k as [|[|[|k]]]; cbn in H;
    try discriminate H; try (destruct k; discriminate H).
  all: injection H as <- <-; cbn; intros Hempty; try discriminate Hempty.
  all: split; reflexivity.
Qed.

Lemma empty_step_message_witness :
  error (ui (snd (run (scripted [answers ""]) selected)))
  = Some "Error processing file: Step 1 (Initial Conversion) failed or returned empty.".
Proof.
  refine (proj2
    (empty_step_message (scripted [answers ""]) selected (f := report) 0
       (req := _) (r := mkResponse (Some "")) _ _ _)); reflexivity.
Defined.

(** C3, as stated, fails: step 1 returns empty text and the failure
    message is not "Step 1 failed or returned empty.". *)
Lemma empty_step_message_counterexample :
  map snd (generateCalls (trace (snd (run (scripted [answers ""]) selected))))
    = [Fulfilled (mkResponse (Some ""))] /\
  fst (pipeline (scripted [answers ""]) report (tryEntry selected))
    <> Throw (mkError "Step 1 failed or returned empty.") /\
  error (ui (snd (run (scripted [answers ""]) selected)))
    <> Some "Step 1 failed or returned empty.".
Proof. split; [reflexivity | split; vm_compute; discriminate]. Qed.

(** The calls of any run are a prefix of one chain: nothing else is ever
    sent. *)
Lemma calls_follow_chain (env : External) (s : AppState) :
  exists a : InlineData,
    let req1 := mkParams "gemini-2.5-flash" [TextPart promptStep1; InlineDataPart a] in
    let req2 md1 := mkParams "gemini-2.5-flash"
      [TextPart promptStep2; InlineDataPart a; TextPart (ocrTag ++ md1)] in
    let req3 md2 := mkParams "gemini-2.5-flash"
      [TextPart promptStep3; InlineDataPart a; TextPart (polishTag ++ md2)] in
    let calls := generateCalls (trace (snd (run env s))) in
    calls = [] \/
    (exists o1, calls = [(req1, o1)]) \/
    (exists md1 o2,
        calls = [(req1, Fulfilled (mkResponse (Some md1))); (req2 md1, o2)]) \/
    (exists md1 md2 o3,
        calls = [(req1, Fulfilled (mkResponse (Some md1)));
                 (req2 md1, Fulfilled (mkResponse (Some md2)));
                 (req3 md2, o3)]).
Proof.
  exec.
  all: try (exists (mkInlineData None ""); left; reflexivity).
  all: eexists; cbn.
  all: first
    [ right; left; eexists; reflexivity
    | right; right; left; do 2 eexists; reflexivity
    | right; right; right; do 3 eexists; reflexivity ].
Qed.

(** C4. In a run that gets its attachment (file selected, client built,
    reader loaded), step 1 is sent prompt 1 and the attachment and nothing
    else; when it answers with non-empty text, step 2 is sent prompt 2, the
    attachment and that text after the OCR tag; and when step 2 answers
    with non-empty text, step 3 is sent prompt 3, the attachment and that
    text after the polish tag. *)
Theorem step_payloads_chain (env : External) (s : AppState) (f : File)
    (dataURL : string) :
  file s = Some f ->
  GoogleGenAI env (API_KEY env) = None ->
  readAsDataURL env f = LoadEnd (Some dataURL) ->
  let a := mkInlineData (nth_error (Js.split "," dataURL) 1) (type f) in
  let req1 := mkParams "gemini-2.5-flash" [TextPart promptStep1; InlineDataPart a] in
  let req2 md1 := mkParams "gemini-2.5-flash"
    [TextPart promptStep2; InlineDataPart a; TextPart (ocrTag ++ md1)] in
  let req3 md2 := mkParams "gemini-2.5-flash"
    [TextPart promptStep3; InlineDataPart a; TextPart (polishTag ++ md2)] in
  let calls := generateCalls (trace (snd (run env s))) in
  nth_error calls 0 = Some (req1, generateContent env 0 req1) /\
  (forall md1,
     generateContent env 0 req1 = Fulfilled (mkResponse (Some md1)) ->
     md1 <> "" ->
     nth_error calls 1 = Some (req2 md1, generateContent env 1 (req2 md1)) /\
     (forall md2,
        generateContent env 1 (req2 md1) = Fulfilled (mkResponse (Some md2)) ->
        md2 <> "" ->
        nth_error calls 2 = Some (req3 md2, generateContent env 2 (req3 md2)))).
Proof.
  intros Hf Hc Hr.
  destruct s as [sfile ? ? ? ? ?]; cbn in Hf; subst sfile.
  exec_unfold. rewrite Hc; cbn. rewrite Hr; cbn.
  repeat exec_step.
  all: split; [reflexivity|]; intros md1 H1 Hne1; try discriminate H1.
  all: injection H1 as <-; try (now elim Hne1).
  all: split; [first [reflexivity | logged_answer]|];
    intros md2 H2 Hne2;
    match type of H2 with
    | generateContent _ _ ?q = _ =>
        match goal with
        | E : generateContent _ _ ?q' = _ |- _ =>
            tryif constr_eq E H2 then fail else (unify q q'; rewrite E in H2)
        end
    end; try discriminate H2.
  all: injection H2 as <-; try (now elim Hne2).
  all: first [reflexivity | logged_answer].
Qed.

Lemma step_payloads_chain_witness :
  exists q2 q3,
    nth_error (generateCalls (trace (snd
      (run (scripted [answers "# A"; answers "# B"; answers "# C"]) selected)))) 1
      = Some (q2, answers "# B") /\
    nth_error (parts q2) 2 = Some (TextPart (ocrTag ++ "# A")) /\
    nth_error (generateCalls (trace (snd
      (run (scripted [answers "# A"; answers "# B"; answers "# C"]) selected)))) 2
      = Some (q3, answers "# C") /\
    nth_error (parts q3) 2 = Some (TextPart (polishTag ++ "# B")).
Proof.
  destruct (@step_payloads_chain
              (scripted [answers "# A"; answers "# B"; answers "# C"]) selected
              report "data:application/pdf;base64,JVBERg=="
              eq_refl eq_refl eq_refl) as [_ Hnext].
  destruct (Hnext "# A" eq_refl) as [H2 Hlast]; [discriminate|].
  pose proof (Hlast "# B" eq_refl) as H3.
  do 2 eexists. split; [exact H2|]. split; [reflexivity|].
  split; [apply H3; discriminate | reflexivity].
Defined.

(** The reader is used at most once in a run. *)
Lemma at_most_one_read (env : External) (s : AppState) :
  List.length (readCalls (trace (snd (run env s)))) <= 1.
Proof. exec; lia. Qed.

(** C5. In a run that reaches the service, the attachment is derived by
    one read of the selected file, before any call, and every call carries
    exactly that attachment. *)
Theorem one_attachment_for_all_steps (env : External) (s : AppState) :
  generateCalls (trace (snd (run env s))) <> [] ->
  exists (f : File) (dataURL : string) (rest : list Event),
    file s = Some f /\
    trace (snd (run env s)) = EvRead f (LoadEnd (Some dataURL)) :: rest /\
    readCalls rest = [] /\
    List.length (readCalls (trace (snd (run env s)))) = 1 /\
    forall req o, In (req, o) (generateCalls rest) ->
      attachments (parts req)
      = [mkInlineData (nth_error (Js.split "," dataURL) 1) (type f)].
Proof.
  exec; intros Hcalls; try (exfalso; apply Hcalls; reflexivity).
  all: do 3 eexists; split; [reflexivity|]; split; [reflexivity|].
  all: split; [reflexivity|]; split; [reflexivity|].
  all: cbn; intros req o Hin.
  all: repeat (destruct Hin as [Hin|Hin]; [injection Hin as <- <-; reflexivity|]).
  all: contradiction.
Qed.

Lemma one_attachment_for_all_steps_witness :
  exists (f : File) (dataURL : string) (rest : list Event),
    file selected = Some f /\
    trace (snd (run (scripted [answers "# A"; answers "# B"; answers "# C"]) selected))
      = EvRead f (LoadEnd (Some dataURL)) :: rest /\
    readCalls rest = [] /\
    List.length (readCalls (trace (snd
      (run (scripted [answers "# A"; answers "# B"; answers "# C"]) selected)))) = 1 /\
    forall req o, In (req, o) (generateCalls rest) ->
      attachments (parts req)
      = [mkInlineData (nth_error (Js.split "," dataURL) 1) (type f)].
Proof.
  apply (one_attachment_for_all_steps
           (scripted [answers "# A"; answers "# B"; answers "# C"]) selected).
  cbn. discriminate.
Defined.

(** Whatever the [try] block throws, the handler stores its message after
    "Error processing file: " and leaves the run idle with no result. *)
Lemma handler_catches_throw (env : External) (s : AppState) (f : File) (e : JsError) :
  file s = Some f ->
  fst (pipeline env f (tryEntry s)) = Throw e ->
  fst (run env s) = Normal tt /\
  ui (snd (run env s)) = failedWith s (message e).
Proof.
  intros Hf. exec_with Hf; intros H; try discriminate H; injection H as <-.
  all: split; reflexivity.
Qed.

(** The failures that are thrown into the flow do reach the handler: when
    the reader throws, a service call is rejected, or a response text is
    empty or absent, the run completes in the state [failedWith]. *)
Lemma aborting_call_reaches_handler (env : External) (s : AppState) (ev : Event) :
  In ev (trace (snd (run env s))) ->
  abortsRun ev = true ->
  exists description : string,
    (forall e, raisedBy ev = Some e -> description = message e) /\
    fst (run env s) = Normal tt /\
    ui (snd (run env s)) = failedWith s description /\
    error (ui (snd (run env s))) = Some ("Error processing file: " ++ description) /\
    result (ui (snd (run env s))) = None /\
    isLoading (ui (snd (run env s))) = false /\
    loadingMessage (ui (snd (run env s))) = "" /\
    convertDisabled (ui (snd (run env s))) = false.
Proof.
  exec; intros Hin.
  all: repeat (destruct Hin as [<-|Hin]; [cbn; intros Hfail; try discriminate Hfail|]);
    try contradiction.
  all: eexists; split;
    [ cbn; intros e' He'; first [discriminate He' | injection He' as <-; reflexivity]
    | repeat split; reflexivity ].
Qed.

(** C7, on a read error.  The encoder's own failure does not reach the
    handler: when the reader ends with [reader.result] null, the promise of
    [fileToGenerativePart] (no [reject], no [onerror]) never settles, so
    the run stays suspended after the one read, with loading on, no error
    message, no result and the convert button disabled. *)
Theorem read_error_never_reaches_handler (env : External) (s : AppState) (f : File) :
  file s = Some f ->
  GoogleGenAI env (API_KEY env) = None ->
  readAsDataURL env f = LoadEnd None ->
  fst (run env s) = Suspended /\
  trace (snd (run env s)) = [EvRead f (LoadEnd None)] /\
  isLoading (ui (snd (run env s))) = true /\
  error (ui (snd (run env s))) = None /\
  result (ui (snd (run env s))) = None /\
  convertDisabled (ui (snd (run env s))) = true.
Proof.
  intros Hf Hc Hr. destruct s as [sfile ? ? ? ? ?]; cbn in Hf; subst sfile.
  exec_unfold. rewrite Hc; cbn. rewrite Hr; cbn. repeat split; reflexivity.
Qed.

Lemma read_error_never_reaches_handler_witness :
  fst (run readError selected) = Suspended /\
  trace (snd (run readError selected)) = [EvRead report (LoadEnd None)] /\
  isLoading (ui (snd (run readError selected))) = true /\
  error (ui (snd (run readError selected))) = None /\
  result (ui (snd (run readError selected))) = None /\
  convertDisabled (ui (snd (run readError selected))) = true.
Proof.
  apply (@read_error_never_reaches_handler readError selected report);
    reflexivity.
Defined.

Example deriveFileName_report :
  deriveFileName (Some (mkFile "report.pdf" "application/pdf" [])) = "report.doc".
Proof. reflexivity. Qed.

Example deriveFileName_absent : deriveFileName None = "document.doc".
Proof. reflexivity. Qed.

Example deriveFileName_txt :
  deriveFileName (Some (mkFile "notes.txt" "application/pdf" [])) = "notes.txt".
Proof. reflexivity. Qed.

Example deriveFileName_twice :
  deriveFileName (Some (mkFile "a.pdf.pdf" "application/pdf" [])) = "a.doc.pdf".
Proof. reflexivity. Qed.

Example split_dataurl :
  nth_error (Js.split "," "data:application/pdf;base64,JVBERg==") 1 = Some "JVBERg==".
Proof. reflexivity. Qed.

(** * Further properties of the conversion flow *)

(** X1. As long as what is thrown or rejected into the flow is a value
    whose [message] can be read (an [Error], as [JsError] has it), the
    promise of [handleConvert] never rejects: the handler catches it and a
    run returns or stays suspended. *)
Theorem handleConvert_never_throws (env : External) (s : AppState) (e : JsError) :
  fst (run env s) <> Throw e.
Proof. exec; discriminate. Qed.

(** X2. A run that completes with a file selected ends with loading off
    and in one of two ways: with a non-empty result, and the download is
    offered; or with no result and the error of the handler, and it is
    not. *)
Theorem completed_run_outcome (env : External) (s : AppState) (f : File) :
  file s = Some f ->
  fst (run env s) = Normal tt ->
  isLoading (ui (snd (run env s))) = false /\
  loadingMessage (ui (snd (run env s))) = "" /\
  ((exists t, result (ui (snd (run env s))) = Some t /\ t <> "" /\
              downloadOffered (ui (snd (run env s))) = true) \/
   (exists m, result (ui (snd (run env s))) = None /\
              error (ui (snd (run env s))) = Some ("Error processing file: " ++ m) /\
              downloadOffered (ui (snd (run env s))) = false)).
Proof.
  intros Hf. exec_with Hf; intros H; try discriminate H.
  all: split; [reflexivity|]; split; [reflexivity|].
  all: first
    [ left; eexists; split; [reflexivity | split; [discriminate | reflexivity]]
    | right; eexists; split; [reflexivity | split; reflexivity] ].
Qed.

Lemma completed_run_outcome_witness :
  isLoading (ui (snd (run (scripted [answers "# A"; Rejected (mkError "quota")])
                        selected))) = false.
Proof.
  refine (proj1 (completed_run_outcome
                   (scripted [answers "# A"; Rejected (mkError "quota")])
                   selected (f := report) _ _)); reflexivity.
Defined.

(** X3. A run stays suspended exactly when one of its outside calls never
    settles: the reader ended with a null result, or a service call got no
    answer. *)
Theorem suspended_iff_pending (env : External) (s : AppState) :
  fst (run env s) = Suspended <->
  existsb pending (trace (snd (run env s))) = true.
Proof. exec; split; intros H; try discriminate H; reflexivity. Qed.

(** X4. A suspended run leaves the component loading for good: no
    result, the convert button disabled and no download offered. *)
Theorem suspended_run_is_stuck (env : External) (s : AppState) :
  fst (run env s) = Suspended ->
  isLoading (ui (snd (run env s))) = true /\
  result (ui (snd (run env s))) = None /\
  convertDisabled (ui (snd (run env s))) = true /\
  downloadOffered (ui (snd (run env s))) = false.
Proof. exec; intros H; try discriminate H; repeat split; reflexivity. Qed.

Lemma suspended_run_is_stuck_witness :
  convertDisabled (ui (snd (run (scripted [answers "# A"]) selected))) = true.
Proof.
  refine (proj1 (proj2 (proj2
    (suspended_run_is_stuck (scripted [answers "# A"]) selected _))));
    reflexivity.
Defined.

(** X5. While the service call at position [k] is unanswered, the loading
    message is the progress label of step [k + 1]. *)
Theorem progress_label_in_flight (env : External) (s : AppState) (k : nat)
    (req : GenerateContentParameters) :
  nth_error (generateCalls (trace (snd (run env s)))) k = Some (req, Pending) ->
  fst (run env s) = Suspended /\
  loadingMessage (ui (snd (run env s))) = nth k progress "".
Proof.
  exec; intros H; destruct k as [|[|[|k]]]; cbn in H; try discriminate H;
    try (destruct k; discriminate H).
  all: split; reflexivity.
Qed.

Lemma progress_label_in_flight_witness :
  loadingMessage (ui (snd (run (scripted [answers "# A"]) selected)))
  = "Step 2 of 3: Verifying and correcting the document...".
Proof.
  refine (proj2 (progress_label_in_flight (scripted [answers "# A"]) selected 1
                   (req := _) _)); reflexivity.
Defined.

(** X6. A run makes at most three service calls, all to the model
    [gemini-2.5-flash], and every call but the last came back with
    non-empty text: nothing is retried and nothing follows a failure. *)
Theorem calls_are_sequential (env : External) (s : AppState) :
  List.length (generateCalls (trace (snd (run env s)))) <= 3 /\
  forall i req o,
    nth_error (generateCalls (trace (snd (run env s)))) i = Some (req, o) ->
    model req = "gemini-2.5-flash" /\
    (S i < List.length (generateCalls (trace (snd (run env s)))) ->
     succeeded o = true).
Proof.
  exec; (split; [lia|]); intros i req o H.
  all: destruct i as [|[|[|i]]]; cbn in H; try discriminate H;
    try (destruct i; discriminate H).
  all: injection H as <- <-; split; [reflexivity | intros Hi; first [reflexivity | lia]].
Qed.

(** X7. A result is stored only after all three steps came back with
    non-empty text: a run that ends with a result made exactly three calls,
    all successful, and the result is the text of the third. *)
Theorem result_requires_three_steps (env : External) (s : AppState) (f : File)
    (t : string) :
  file s = Some f ->
  result (ui (snd (run env s))) = Some t ->
  fst (run env s) = Normal tt /\
  exists q1 q2 q3 r1 r2 r3,
    generateCalls (trace (snd (run env s)))
      = [(q1, Fulfilled r1); (q2, Fulfilled r2); (q3, Fulfilled r3)] /\
    Js.falsy (text r1) = false /\
    Js.falsy (text r2) = false /\
    text r3 = Some t /\ t <> "".
Proof.
  intros Hf. exec_with Hf; intros H; try discriminate H.
  injection H as <-. split; [reflexivity|].
  do 6 eexists. split; [reflexivity|].
  split; [reflexivity|]. split; [reflexivity|]. split; [reflexivity | discriminate].
Qed.

Lemma result_requires_three_steps_witness :
  fst (run (scripted [answers "# A"; answers "# B"; answers "# C"]) selected)
  = Normal tt.
Proof.
  refine (proj1 (result_requires_three_steps
                   (scripted [answers "# A"; answers "# B"; answers "# C"])
                   selected (f := report) (t := "# C") _ _)); reflexivity.
Defined.

(** X8. When the client cannot be built, the run fails with that error
    before the file is read or any call is made. *)
Theorem client_failure_precedes_read (env : External) (s : AppState) (f : File)
    (e : JsError) :
  file s = Some f ->
  GoogleGenAI env (API_KEY env) = Some e ->
  run env s = (Normal tt, mkWorld (failedWith s (message e)) []).
Proof.
  intros Hf He. destruct s as [sfile ? ? ? ? ?]; cbn in Hf; subst sfile.
  exec_unfold. rewrite He. reflexivity.
Qed.

Lemma client_failure_precedes_read_witness :
  run keyless selected
  = (Normal tt, mkWorld (failedWith selected "An API Key must be set") []).
Proof.
  apply (client_failure_precedes_read keyless selected (f := report)
           (e := mkError "An API Key must be set")); reflexivity.
Defined.

(** X9. A run, however it ends, leaves the selected file and the dragging
    flag as they were. *)
Theorem handleConvert_keeps_file (env : External) (s : AppState) :
  file (ui (snd (run env s))) = file s /\
  isDragging (ui (snd (run env s))) = isDragging s.
Proof. exec; split; reflexivity. Qed.

(** X10. A run starts afresh: with the same file selected, the outcome,
    the calls made and (when the run completes) the final state do not
    depend on the error, result, loading flag or message left by what
    happened before. *)
Theorem run_ignores_previous_outcome (env : External) (s s' : AppState) (f : File) :
  file s = Some f ->
  file s' = Some f ->
  isDragging s = isDragging s' ->
  fst (run env s) = fst (run env s') /\
  trace (snd (run env s)) = trace (snd (run env s')) /\
  (fst (run env s) = Normal tt -> ui (snd (run env s)) = ui (snd (run env s'))).
Proof.
  intros Hf Hf' Hd.
  destruct s as [sfile ? ? ? ? ?], s' as [sfile' ? ? ? ? ?];
    cbn in Hf, Hf', Hd; subst.
  exec_unfold; repeat exec_step; repeat split; try reflexivity;
    intros H; discriminate H.
Qed.

Lemma run_ignores_previous_outcome_witness :
  ui (snd (run (scripted [answers "# A"; answers "# B"; answers "# C"]) converted))
  = ui (snd (run (scripted [answers "# A"; answers "# B"; answers "# C"]) selected)).
Proof.
  refine (proj2 (proj2 (run_ignores_previous_outcome
    (scripted [answers "# A"; answers "# B"; answers "# C"])
    converted selected (f := report) _ _ _)) _); reflexivity.
Defined.

(** ** The encoder *)

Lemma append_nil_r (s : string) : s ++ "" = s.
Proof. induction s as [|c s IH]; cbn; [reflexivity | now rewrite IH]. Qed.

Lemma append_assoc (a b c : string) : (a ++ b) ++ c = a ++ (b ++ c).
Proof. induction a as [|x a IH]; cbn; [reflexivity | now rewrite IH]. Qed.

Lemma split_from_free (acc p : string) :
  Js.includes "," p = false -> Js.split_from "," acc p = [acc ++ p].
Proof.
  revert acc. induction p as [|c p IH]; intros acc H.
  - cbn. now rewrite append_nil_r.
  - change (Js.includes "," (String c p))
      with ((Ascii.eqb "," c && true) || Js.includes "," p) in H.
    apply orb_false_iff in H as [Hc Hp].
    rewrite andb_true_r, Ascii.eqb_sym in Hc.
    cbn [Js.split_from]. rewrite Hc, (IH _ Hp), append_assoc. reflexivity.
Qed.

Lemma split_from_first (acc h rest : string) :
  Js.includes "," h = false ->
  Js.split_from "," acc (h ++ "," ++ rest)
  = (acc ++ h) :: Js.split_from "," "" rest.
Proof.
  revert acc. induction h as [|c h IH]; intros acc H.
  - cbn. now rewrite append_nil_r.
  - change (Js.includes "," (String c h))
      with ((Ascii.eqb "," c && true) || Js.includes "," h) in H.
    apply orb_false_iff in H as [Hc Hh].
    rewrite andb_true_r, Ascii.eqb_sym in Hc.
    change ((String c h ++ "," ++ rest)) with (String c (h ++ "," ++ rest)).
    cbn [Js.split_from]. rewrite Hc, (IH _ Hh), append_assoc. reflexivity.
Qed.

(** X11. When the reader ends with a data URL [head,payload] whose two
    sides hold no further comma, the encoder returns the attachment whose
    data is exactly [payload] (the empty payload of an empty file
    included) and whose MIME type is the file's, after one read. *)
Theorem fileToGenerativePart_payload (env : External) (f : File) (w : World)
    (head payload : string) :
  readAsDataURL env f = LoadEnd (Some (head ++ "," ++ payload)) ->
  Js.includes "," head = false ->
  Js.includes "," payload = false ->
  fileToGenerativePart env f w
  = (Normal (InlineDataPart (mkInlineData (Some payload) (type f))),
     mkWorld (ui w) (trace w ++ [EvRead f (LoadEnd (Some (head ++ "," ++ payload)))])).
Proof.
  intros Hr Hh Hp.
  unfold fileToGenerativePart, base64EncodedDataPromise, bind, emit, await, ret.
  rewrite Hr. unfold Js.split.
  rewrite (split_from_first "" _ payload Hh), (split_from_free "" _ Hp).
  reflexivity.
Qed.

Lemma fileToGenerativePart_payload_witness :
  fst (fileToGenerativePart (scripted []) report (mkWorld selected []))
  = Normal (InlineDataPart (mkInlineData (Some "JVBERg==") "application/pdf")).
Proof.
  rewrite (@fileToGenerativePart_payload (scripted []) report (mkWorld selected [])
             "data:application/pdf;base64" "JVBERg=="); reflexivity.
Defined.

(** X12. A data URL without a comma is not refused: the run goes on and
    step 1 is sent an attachment with no data. *)
Theorem missing_payload_is_sent (env : External) (s : AppState) (f : File)
    (dataURL : string) :
  file s = Some f ->
  GoogleGenAI env (API_KEY env) = None ->
  readAsDataURL env f = LoadEnd (Some dataURL) ->
  Js.includes "," dataURL = false ->
  exists o rest,
    generateCalls (trace (snd (run env s)))
    = (mkParams "gemini-2.5-flash"
         [TextPart promptStep1; InlineDataPart (mkInlineData None (type f))], o)
      :: rest.
Proof.
  intros Hf Hc Hr Hfree.
  destruct s as [sfile ? ? ? ? ?]; cbn in Hf; subst sfile.
  exec_unfold. rewrite Hc; cbn. rewrite Hr; cbn.
  unfold Js.split. rewrite (split_from_free "" _ Hfree). cbn.
  repeat exec_step; do 2 eexists; reflexivity.
Qed.

Lemma missing_payload_is_sent_witness :
  exists o rest,
    generateCalls (trace (snd (run
      (mkExternal None (fun _ => None) (fun _ => LoadEnd (Some "data:"))
         (fun _ _ => Pending)) selected)))
    = (mkParams "gemini-2.5-flash"
         [TextPart promptStep1; InlineDataPart (mkInlineData None (type report))], o)
      :: rest.
Proof.
  apply (@missing_payload_is_sent
           (mkExternal None (fun _ => None) (fun _ => LoadEnd (Some "data:"))
              (fun _ _ => Pending)) selected report "data:");
    reflexivity.
Defined.

(** ** Drop and input change *)

(** X13. A drop is judged by its first file alone: when that file is not
    a PDF the drop is refused, whatever files follow it. *)
Theorem drop_judged_by_first_file (f : File) (others : list File) (s : AppState) :
  type f <> "application/pdf" ->
  file (handleDrop (Some (f :: others)) s) = None /\
  error (handleDrop (Some (f :: others)) s) = Some "Please select a valid PDF file." /\
  result (handleDrop (Some (f :: others)) s) = result s /\
  isDragging (handleDrop (Some (f :: others)) s) = false.
Proof.
  intros H. apply String.eqb_neq in H.
  unfold handleDrop, handleFileChange. rewrite H. repeat split; reflexivity.
Qed.

Lemma drop_judged_by_first_file_witness :
  file (handleDrop (Some [picture; report]) selected) = None.
Proof.
  apply (drop_judged_by_first_file picture [report] selected). cbn. discriminate.
Defined.

(** X14. An empty file list is treated differently by the two intakes: a
    drop without files only ends the dragging, while an input change
    without files unselects the file and reports the PDF error. *)
Theorem empty_intake (s : AppState) :
  handleDrop (Some []) s = setIsDragging false s /\
  handleDrop None s = setIsDragging false s /\
  file (onChange (Some []) s) = None /\
  error (onChange (Some []) s) = Some "Please select a valid PDF file." /\
  onChange None s = onChange (Some []) s.
Proof. repeat split; reflexivity. Qed.

(** ** What holds in every state *)

Lemma run_file (env : External) (s : AppState) :
  file (ui (snd (run env s))) = file s.
Proof. exec; reflexivity. Qed.

Lemma act_keeps_pdfOnly (s : AppState) (a : Action) :
  pdfOnly s -> pdfOnly (act s a).
Proof.
  unfold pdfOnly. destruct a as [| | |files|files|env]; cbn; auto.
  - destruct files as [[|f ?]|]; cbn; auto.
    unfold handleFileChange. destruct (String.eqb_spec (type f) "application/pdf");
      cbn; auto.
  - unfold onChange, handleFileChange. destruct files as [[|f ?]|]; cbn; auto.
    destruct (String.eqb_spec (type f) "application/pdf"); cbn; auto.
  - intros H. change (match file (ui (snd (run env s))) with
                      | Some f => type f = "application/pdf"
                      | None => True
                      end).
    now rewrite run_file.
Qed.

Lemma fold_keeps_pdfOnly (l : list Action) (s : AppState) :
  pdfOnly s -> pdfOnly (fold_left act l s).
Proof.
  revert s. induction l as [|a l IH]; intros s H; cbn; auto.
  apply IH, act_keeps_pdfOnly, H.
Qed.

(** X15. After any sequence of handler calls on the mounted component, the
    stored file, when there is one, has MIME type [application/pdf]. *)
Theorem stored_file_is_pdf (l : list Action) (f : File) :
  file (after_actions l) = Some f -> type f = "application/pdf".
Proof.
  intros H. pose proof (fold_keeps_pdfOnly l initialState I) as Hinv.
  unfold pdfOnly in Hinv. fold (after_actions l) in Hinv. now rewrite H in Hinv.
Qed.

Lemma stored_file_is_pdf_witness :
  type report = "application/pdf".
Proof.
  apply (stored_file_is_pdf
           [Change (Some [picture]); DragEnter; Drop (Some [report; picture]);
            Convert (scripted [answers "# A"])]).
  reflexivity.
Defined.

Lemma pdf_attachments (env : External) (s : AppState)
    (req : GenerateContentParameters) (o : Settled GenerateContentResponse)
    (a : InlineData) :
  pdfOnly s ->
  In (req, o) (generateCalls (trace (snd (run env s)))) ->
  In a (attachments (parts req)) ->
  mimeType a = "application/pdf".
Proof.
  unfold pdfOnly. exec; intros Hpdf Hin; try contradiction.
  all: repeat (destruct Hin as [Hin|Hin];
               [injection Hin as <- <-; cbn; intros [<-|[]]; exact Hpdf|]).
  all: contradiction.
Qed.

(** X16. Whatever was done to the component before, every attachment a
    conversion sends to the service is declared [application/pdf]. *)
Theorem service_receives_pdf_only (l : list Action) (env : External)
    (req : GenerateContentParameters) (o : Settled GenerateContentResponse)
    (a : InlineData) :
  In (req, o) (generateCalls (trace (snd (run env (after_actions l))))) ->
  In a (attachments (parts req)) ->
  mimeType a = "application/pdf".
Proof.
  apply pdf_attachments. apply fold_keeps_pdfOnly. exact I.
Qed.

Lemma service_receives_pdf_only_witness :
  mimeType (mkInlineData (Some "JVBERg==") "application/pdf") = "application/pdf".
Proof.
  refine (@service_receives_pdf_only
            [Change (Some [picture]); Drop (Some [report])]
            (scripted [answers ""])
            (mkParams "gemini-2.5-flash"
               [TextPart promptStep1;
                InlineDataPart (mkInlineData (Some "JVBERg==") "application/pdf")])
            (answers "") _ _ _).
  - cbn. left. reflexivity.
  - cbn. left. reflexivity.
Defined.

(** ** Percent-encoding *)

Lemma every_app (p : ascii -> bool) (a b : string) :
  Uri.every p (a ++ b) = Uri.every p a && Uri.every p b.
Proof.
  induction a as [|c a IH]; cbn; [reflexivity|].
  now rewrite IH, andb_assoc.
Qed.

Lemma encodeChar_uriChar (c : ascii) :
  Uri.every Uri.uriChar (Uri.encodeChar c) = true.
Proof. destruct c as [[] [] [] [] [] [] [] []]; reflexivity. Qed.

(** X17. The output of [encodeURIComponent] holds unreserved characters
    and [%] only, so the [href] of the download has no raw space, quote,
    angle bracket, [#] or non-ASCII byte after its prefix. *)
Theorem encodeURIComponent_is_uri_safe (s : string) :
  Uri.every Uri.uriChar (Uri.encodeURIComponent s) = true.
Proof.
  induction s as [|c s IH]; [reflexivity|].
  cbn [Uri.encodeURIComponent]. now rewrite every_app, encodeChar_uriChar, IH.
Qed.

Lemma unescape_encodeChar (c : ascii) (rest : string) :
  Uri.unescape (Uri.encodeChar c ++ rest) = String c (Uri.unescape rest).
Proof. destruct c as [[] [] [] [] [] [] [] []]; reflexivity. Qed.

Lemma unescape_encodeURIComponent (s : string) :
  Uri.unescape (Uri.encodeURIComponent s) = s.
Proof.
  induction s as [|c s IH]; [reflexivity|].
  cbn [Uri.encodeURIComponent]. now rewrite unescape_encodeChar, IH.
Qed.

(** X18. [encodeURIComponent] loses nothing: two texts with the same
    encoding are the same text. *)
Theorem encodeURIComponent_injective (a b : string) :
  Uri.encodeURIComponent a = Uri.encodeURIComponent b -> a = b.
Proof.
  intros H. rewrite <- (unescape_encodeURIComponent a), H.
  apply unescape_encodeURIComponent.
Qed.

Lemma encodeURIComponent_injective_witness : "a b" = "a b".
Proof. apply (encodeURIComponent_injective "a b" "a b"). reflexivity. Defined.

(** ** Export *)

Lemma remove_appended (x : nat) (l : list nat) :
  ~ In x l -> List.remove Nat.eq_dec x (l ++ [x]) = l.
Proof.
  intros H. rewrite remove_app, (notin_remove Nat.eq_dec _ _ H). cbn.
  destruct (Nat.eq_dec x x) as [_|Hne]; [apply app_nil_r | now elim Hne].
Qed.

Lemma fresh_not_child (b : Browser) : wellFormed b -> ~ In (created b) (bodyChildren b).
Proof.
  unfold wellFormed. rewrite Forall_forall. intros H Hin.
  apply H in Hin. lia.
Qed.

(** X19. Without a result (absent or empty) [handleDownload] does
    nothing: no element is created and nothing is saved. *)
Theorem handleDownload_without_result
    (makeHtml : list (string * bool) -> string -> string)
    (s : AppState) (b : Browser) :
  Js.falsy (result s) = true -> handleDownload makeHtml s b = b.
Proof.
  unfold handleDownload, handleDownloadOutcome.
  destruct (result s) as [[|c r]|]; cbn;
    [reflexivity | discriminate | reflexivity].
Qed.

Lemma handleDownload_without_result_witness :
  handleDownload plainHtml selected (mkBrowser 1 [0] []) = mkBrowser 1 [0] [].
Proof. apply handleDownload_without_result. reflexivity. Defined.

(** X20. With a result, [handleDownload] goes one of two ways.  When the
    document (header, the HTML shown in the preview, footer) holds a lone
    surrogate, [encodeURIComponent] throws and the page is left as it was.
    Otherwise exactly one document is saved: that document,
    percent-encoded after the Word data-URL prefix, under the derived file
    name; and the anchor that was appended is removed again, so the page
    body is as before. *)
Theorem handleDownload_saves_once
    (makeHtml : list (string * bool) -> string -> string)
    (s : AppState) (b : Browser) :
  Js.falsy (result s) = false ->
  wellFormed b ->
  exists html,
    renderResultPreview makeHtml s = Some html /\
    (Uri.hasLoneSurrogate (header ++ html ++ footer) = true ->
     handleDownloadOutcome makeHtml s b = (Throw URIError, b)) /\
    (Uri.hasLoneSurrogate (header ++ html ++ footer) = false ->
     fst (handleDownloadOutcome makeHtml s b) = Normal tt /\
     clicked (handleDownload makeHtml s b)
     = List.app (clicked b)
          [mkAnchor ("data:application/vnd.ms-word;charset=utf-8,"
                       ++ Uri.encodeURIComponent (header ++ html ++ footer))
                    (deriveFileName (file s))] /\
     bodyChildren (handleDownload makeHtml s b) = bodyChildren b /\
     created (handleDownload makeHtml s b) = S (created b) /\
     wellFormed (handleDownload makeHtml s b)).
Proof.
  intros Hres Hwf.
  unfold handleDownload, handleDownloadOutcome, renderResultPreview.
  destruct (result s) as [[|c r]|]; try discriminate Hres.
  eexists. split; [reflexivity|].
  split; intros Hs; rewrite Hs; [reflexivity|].
  split; [reflexivity|]. split; [reflexivity|].
  cbn [snd bodyChildren created].
  rewrite (@remove_appended _ _ (@fresh_not_child b Hwf)).
  split; [reflexivity|]. split; [reflexivity|].
  unfold wellFormed in *; cbn [bodyChildren created].
  eapply Forall_impl; [|exact Hwf]. cbn. lia.
Qed.

Lemma handleDownload_saves_once_witness :
  (bodyChildren (handleDownload plainHtml converted (mkBrowser 3 [0; 2] [])) = [0; 2] /\
   List.length (clicked (handleDownload plainHtml converted (mkBrowser 3 [0; 2] []))) = 1) /\
  handleDownloadOutcome plainHtml garbled (mkBrowser 3 [0; 2] [])
  = (Throw URIError, mkBrowser 3 [0; 2] []).
Proof.
  assert (Hwf : wellFormed (mkBrowser 3 [0; 2] []))
    by (unfold wellFormed; cbn; repeat constructor).
  split.
  - destruct (@handleDownload_saves_once plainHtml converted (mkBrowser 3 [0; 2] [])
                eq_refl Hwf) as (html & Hhtml & _ & Hsave).
    injection Hhtml as <-.
    destruct (Hsave eq_refl) as (_ & Hclick & Hbody & _).
    split; [exact Hbody | rewrite Hclick; reflexivity].
  - destruct (@handleDownload_saves_once plainHtml garbled (mkBrowser 3 [0; 2] [])
                eq_refl Hwf) as (html & Hhtml & Hthrow & _).
    injection Hhtml as <-. apply Hthrow. reflexivity.
Defined.

Lemma successful_run_state (env : External) (s : AppState) (f : File)
    (q1 q2 q3 : GenerateContentParameters) (r1 r2 r3 : GenerateContentResponse)
    (t : string) :
  file s = Some f ->
  generateCalls (trace (snd (run env s)))
    = [(q1, Fulfilled r1); (q2, Fulfilled r2); (q3, Fulfilled r3)] ->
  Js.falsy (text r1) = false ->
  Js.falsy (text r2) = false ->
  text r3 = Some t -> t <> "" ->
  result (ui (snd (run env s))) = Some t /\
  file (ui (snd (run env s))) = Some f /\
  isLoading (ui (snd (run env s))) = false.
Proof.
  intros Hf. exec_with Hf; intros H; try discriminate H.
  all: injection H as <- <- <- <- <- <-; cbn; intros H1 H2 H3 Ht;
    try discriminate H1; try discriminate H2; try discriminate H3.
  all: injection H3 as <-; try (now elim Ht).
  all: repeat split; reflexivity.
Qed.

(** X21. From click to file: when all three steps of a run succeed, the
    file stored as the run ends is named [base.pdf] (no earlier [.pdf] in
    the name) and the document made of the third response holds no lone
    surrogate, the download is offered and saves the rendering of the
    third response under the name [base.doc]. *)
Theorem convert_then_download
    (makeHtml : list (string * bool) -> string -> string)
    (env : External) (s : AppState) (f : File) (base : string) (b : Browser)
    (q1 q2 q3 : GenerateContentParameters) (r1 r2 r3 : GenerateContentResponse)
    (t : string) :
  file (ui (snd (run env s))) = Some f ->
  name f = base ++ ".pdf" ->
  Js.includes ".pdf" base = false ->
  generateCalls (trace (snd (run env s)))
    = [(q1, Fulfilled r1); (q2, Fulfilled r2); (q3, Fulfilled r3)] ->
  Js.falsy (text r1) = false ->
  Js.falsy (text r2) = false ->
  text r3 = Some t -> t <> "" ->
  Uri.hasLoneSurrogate (header ++ makeHtml [("tables", true)] t ++ footer) = false ->
  downloadOffered (ui (snd (run env s))) = true /\
  fst (handleDownloadOutcome makeHtml (ui (snd (run env s))) b) = Normal tt /\
  clicked (handleDownload makeHtml (ui (snd (run env s))) b)
  = List.app (clicked b)
       [mkAnchor ("data:application/vnd.ms-word;charset=utf-8,"
                    ++ Uri.encodeURIComponent
                         (header ++ makeHtml [("tables", true)] t ++ footer))
                 (base ++ ".doc")].
Proof.
  intros Hf Hname Hbase.
  assert (Hfile : deriveFileName (Some f) = base ++ ".doc").
  { unfold deriveFileName; cbn [option_map].
    rewrite Hname, (replace_trailing_pdf _ Hbase).
    apply or_else_nonempty. destruct base; discriminate. }
  intros Hcalls H1 H2 H3 Ht Hs.
  rewrite run_file in Hf.
  destruct (successful_run_state env s Hf Hcalls H1 H2 H3 Ht) as (Hres & Hfile' & Hload).
  unfold downloadOffered, handleDownload, handleDownloadOutcome.
  rewrite Hres, Hfile', Hload, Hfile.
  destruct t as [|c t]; [now elim Ht|]. rewrite Hs. repeat split; reflexivity.
Qed.

Lemma convert_then_download_witness :
  downloadOffered
    (ui (snd (run (scripted [answers "# A"; answers "# B"; answers "# C"]) selected)))
  = true.
Proof.
  refine (proj1 (@convert_then_download plainHtml
    (scripted [answers "# A"; answers "# B"; answers "# C"]) selected report
    "report" (mkBrowser 0 [] []) _ _ _
    (mkResponse (Some "# A")) (mkResponse (Some "# B")) (mkResponse (Some "# C"))
    "# C" _ _ _ _ _ _ _ _ _)); try reflexivity. discriminate.
Defined.

(** X22. A refused file does not take the finished document away: after
    a non-PDF is selected over a state that holds a result, the download
    is still offered and (the document holding no lone surrogate) saves
    that same document, now under the default name ["document.doc"]. *)
Theorem refused_file_keeps_download
    (makeHtml : list (string * bool) -> string -> string)
    (s : AppState) (f : File) (b : Browser) (markdown : string) :
  result s = Some markdown -> markdown <> "" ->
  isLoading s = false ->
  type f <> "application/pdf" ->
  Uri.hasLoneSurrogate
    (header ++ makeHtml [("tables", true)] markdown ++ footer) = false ->
  downloadOffered (handleFileChange (Some f) s) = true /\
  fst (handleDownloadOutcome makeHtml (handleFileChange (Some f) s) b) = Normal tt /\
  clicked (handleDownload makeHtml (handleFileChange (Some f) s) b)
  = List.app (clicked b)
       [mkAnchor ("data:application/vnd.ms-word;charset=utf-8,"
                    ++ Uri.encodeURIComponent
                         (header ++ makeHtml [("tables", true)] markdown ++ footer))
                 "document.doc"].
Proof.
  intros Hres Hne Hload Htype Hs. apply String.eqb_neq in Htype.
  assert (Hstate : result (handleFileChange (Some f) s) = Some markdown /\
                   file (handleFileChange (Some f) s) = None /\
                   isLoading (handleFileChange (Some f) s) = false).
  { unfold handleFileChange. rewrite Htype. cbn. auto. }
  destruct Hstate as (Hres' & Hfile' & Hload').
  unfold downloadOffered, handleDownload, handleDownloadOutcome.
  rewrite Hres', Hfile', Hload'.
  destruct markdown as [|c r]; [congruence|]. rewrite Hs.
  repeat split; reflexivity.
Qed.

Lemma refused_file_keeps_download_witness :
  downloadOffered (handleFileChange (Some picture) converted) = true.
Proof.
  refine (proj1 (@refused_file_keeps_download plainHtml converted picture
                   (mkBrowser 0 [] []) "# Old" _ _ _ _ _));
    try reflexivity; cbn; discriminate.
Defined.
